(** * Bestiary UI: the Apollo mutation wrappers

    A shallow embedding of [ui/src/apollo/mutations.js] (and of the older
    copy of its project half, [unnamed/part_000]): the GraphQL documents
    built by the [gql] template tag, the eight wrappers that hand them to
    [apollo.mutate], and the properties the specification states about
    them. *)

From Stdlib Require Import ZArith Ascii.
From stdpp Require Import gmap strings list fin_maps.

Set Warnings "-register-all".
Local Open Scope string_scope.

(** ** JavaScript values

    Plain data as the UI passes it around: primitives, arrays and objects
    holding data properties only (no accessors, no functions).  A string
    is a sequence of one-byte code units; an integer stands for a JS
    number (no wrapper computes with numbers). *)

Inductive JsValue : Type :=
  | JUndefined
  | JNull
  | JBool (b : bool)
  | JNum (n : Z)
  | JStr (s : string)
  | JArr (items : list JsValue)
  | JObj (fields : gmap string JsValue).

(** What a JS evaluation can throw: the TypeError of a property read on
    [undefined] or [null] (base value and property key), or any value
    thrown by foreign code. *)
Inductive Exn : Type :=
  | TypeError (base : JsValue) (key : string)
  | Thrown (v : JsValue).

Inductive Completion (A : Type) : Type :=
  | Normal (a : A)
  | Throw (e : Exn).
Arguments Normal {A} a.
Arguments Throw {A} e.

Definition is_digit (c : ascii) : bool :=
  (48 <=? nat_of_ascii c)%nat && (nat_of_ascii c <=? 57)%nat.

Fixpoint digits_value (s : string) (acc : nat) : option nat :=
  match s with
  | EmptyString => Some acc
  | String c rest =>
      if is_digit c
      then digits_value rest (10 * acc + (nat_of_ascii c - 48))
      else None
  end.

(** A canonical array index: ["0"], or digits without a leading zero. *)
Definition parse_index (k : string) : option nat :=
  match k with
  | EmptyString => None
  | String "0" EmptyString => Some 0%nat
  | String "0" _ => None
  | _ => digits_value k 0
  end.

Definition nullish (v : JsValue) : bool :=
  match v with
  | JUndefined | JNull => true
  | _ => false
  end.

(** [base.key]: the member expression.  Reading from [undefined] or
    [null] throws; an object yields its own property; an array or a
    string yields [length] and its indexed elements; every other read is
    [undefined].  (Properties inherited from the built-in prototypes are
    not modelled: none is named like a key the wrappers read.) *)
Definition get_prop (base : JsValue) (key : string) : Completion JsValue :=
  match base with
  | JUndefined | JNull => Throw (TypeError base key)
  | JObj fields => Normal (default JUndefined (fields !! key))
  | JArr items =>
      if String.eqb key "length" then Normal (JNum (Z.of_nat (length items)))
      else match parse_index key with
           | Some i => Normal (default JUndefined (items !! i))
           | None => Normal JUndefined
           end
  | JStr s =>
      if String.eqb key "length" then Normal (JNum (Z.of_nat (String.length s)))
      else match parse_index key with
           | Some i =>
               Normal (match String.get i s with
                       | Some c => JStr (String c EmptyString)
                       | None => JUndefined
                       end)
           | None => Normal JUndefined
           end
  | JBool _ | JNum _ => Normal JUndefined
  end.

(** ** GraphQL documents

    The syntax tree that [gql] produces, for the part of the language the
    documents of this module are written in: operations with variable
    definitions and selection sets of fields whose arguments are
    variables. *)

Module GraphQL.

Inductive OperationType : Type := Query | Mutation | Subscription.

Inductive GType : Type :=
  | NamedType (name : string)
  | ListType (elem : GType)
  | NonNullType (inner : GType).

Record VariableDefinition : Type := VarDef {
  variable : string;
  type : GType
}.

(** [name: $value] *)
Record Argument : Type := Arg {
  arg_name : string;
  arg_variable : string
}.

Inductive Selection : Type :=
  | Field (name : string) (arguments : list Argument)
          (selectionSet : list Selection).

Record OperationDefinition : Type := Operation {
  operation : OperationType;
  op_name : option string;
  variableDefinitions : list VariableDefinition;
  op_selectionSet : list Selection
}.

Definition Document : Type := list OperationDefinition.

(** *** Lexer *)

Inductive Token : Type :=
  | TPunct (c : ascii)
  | TName (s : string).

Definition is_letter (c : ascii) : bool :=
  let n := nat_of_ascii c in
  ((65 <=? n)%nat && (n <=? 90)%nat) || ((97 <=? n)%nat && (n <=? 122)%nat)
  || (n =? 95)%nat.

(** Whitespace, line terminators and commas are insignificant. *)
Definition is_ignored (c : ascii) : bool :=
  let n := nat_of_ascii c in
  (n =? 32)%nat || (n =? 9)%nat || (n =? 10)%nat || (n =? 13)%nat
  || (n =? 44)%nat.

Definition is_punct (c : ascii) : bool :=
  existsb (Ascii.eqb c)
    ["!"; "$"; "&"; "("; ")"; ":"; "="; "@"; "["; "]"; "{"; "|"; "}"]%char.

Definition flush (name : string) (ts : list Token) : list Token :=
  match name with
  | EmptyString => ts
  | _ => TName name :: ts
  end.

(** [name] is the name being read, if any.  Characters outside the
    modelled sub-language (digits starting a token, quotes, comments)
    make the lexer fail. *)
Fixpoint tokens (s : string) (name : string) : option (list Token) :=
  match s with
  | EmptyString => Some (flush name [])
  | String c rest =>
      if is_letter c then tokens rest (name +:+ String c EmptyString)
      else if is_digit c then
        match name with
        | EmptyString => None
        | _ => tokens rest (name +:+ String c EmptyString)
        end
      else if is_ignored c then flush name <$> tokens rest EmptyString
      else if is_punct c then
        (fun ts => flush name (TPunct c :: ts)) <$> tokens rest EmptyString
      else None
  end.

(** *** Parser *)

Fixpoint parse_type (fuel : nat) (ts : list Token) : option (GType * list Token) :=
  match fuel with
  | O => None
  | S fuel' =>
      '(t, rest) ← match ts with
                    | TName n :: rest => Some (NamedType n, rest)
                    | TPunct "[" :: rest =>
                        '(elem, rest') ← parse_type fuel' rest;
                        match rest' with
                        | TPunct "]" :: rest'' => Some (ListType elem, rest'')
                        | _ => None
                        end
                    | _ => None
                    end;
      match rest with
      | TPunct "!" :: rest' => Some (NonNullType t, rest')
      | _ => Some (t, rest)
      end
  end.

(** The definitions after an opening parenthesis, up to the closing one. *)
Fixpoint parse_variable_definitions (fuel : nat) (ts : list Token)
  : option (list VariableDefinition * list Token) :=
  match fuel with
  | O => None
  | S fuel' =>
      match ts with
      | TPunct ")" :: rest => Some ([], rest)
      | TPunct "$" :: TName v :: TPunct ":" :: rest =>
          '(t, rest') ← parse_type fuel' rest;
          '(more, rest'') ← parse_variable_definitions fuel' rest';
          Some (VarDef v t :: more, rest'')
      | _ => None
      end
  end.

(** The arguments after an opening parenthesis, up to the closing one. *)
Fixpoint parse_arguments (ts : list Token) : option (list Argument * list Token) :=
  match ts with
  | TPunct ")" :: rest => Some ([], rest)
  | TName a :: TPunct ":" :: TPunct "$" :: TName v :: rest =>
      '(more, rest') ← parse_arguments rest;
      Some (Arg a v :: more, rest')
  | _ => None
  end.

(** A parenthesised list may not be empty. *)
Definition parenthesised {A} (p : list Token → option (list A * list Token))
    (ts : list Token) : option (list A * list Token) :=
  match ts with
  | TPunct "(" :: rest =>
      '(xs, rest') ← p rest;
      match xs with
      | [] => None
      | _ => Some (xs, rest')
      end
  | _ => Some ([], ts)
  end.

(** The fields after an opening brace, up to the closing one. *)
Fixpoint parse_selections (fuel : nat) (ts : list Token)
  : option (list Selection * list Token) :=
  match fuel with
  | O => None
  | S fuel' =>
      match ts with
      | TPunct "}" :: rest => Some ([], rest)
      | TName f :: rest =>
          '(args, rest1) ← parenthesised parse_arguments rest;
          '(sub, rest2) ← match rest1 with
                           | TPunct "{" :: inner =>
                               '(sub, rest2) ← parse_selections fuel' inner;
                               match sub with
                               | [] => None
                               | _ => Some (sub, rest2)
                               end
                           | _ => Some ([], rest1)
                           end;
          '(more, rest3) ← parse_selections fuel' rest2;
          Some (Field f args sub :: more, rest3)
      | _ => None
      end
  end.

Definition parse_operation_type (n : string) : option OperationType :=
  if String.eqb n "query" then Some Query
  else if String.eqb n "mutation" then Some Mutation
  else if String.eqb n "subscription" then Some Subscription
  else None.

Definition parse_operation (fuel : nat) (ts : list Token)
  : option (OperationDefinition * list Token) :=
  match ts with
  | TName kw :: rest =>
      ty ← parse_operation_type kw;
      let '(name, rest1) := match rest with
                            | TName n :: r => (Some n, r)
                            | _ => (None, rest)
                            end in
      '(vars, rest2) ← parenthesised (parse_variable_definitions fuel) rest1;
      match rest2 with
      | TPunct "{" :: inner =>
          '(sels, rest3) ← parse_selections fuel inner;
          match sels with
          | [] => None
          | _ => Some (Operation ty name vars sels, rest3)
          end
      | _ => None
      end
  | _ => None
  end.

Fixpoint parse_document (fuel : nat) (ts : list Token) : option Document :=
  match fuel with
  | O => None
  | S fuel' =>
      '(op, rest) ← parse_operation (length ts) ts;
      match rest with
      | [] => Some [op]
      | _ => (op ::.) <$> parse_document fuel' rest
      end
  end.

(** The [gql] template tag of graphql-tag, on a template without
    substitutions: the syntax tree of the text, or [None] where the real
    tag throws a syntax error or the text leaves the modelled
    sub-language (shorthand queries, fragments, directives, aliases,
    literal argument values, default values). *)
Definition gql (source : string) : option Document :=
  ts ← tokens source EmptyString;
  parse_document (length ts) ts.

(** A document that failed to parse would make the module fail to load;
    the documents below all parse (see [documents_are_single_mutations]). *)
Definition loaded (d : option Document) : Document := default [] d.

End GraphQL.

Import GraphQL.

(** ** The Apollo client and the effects of a wrapper

    [apollo.mutate(options)] is foreign code: it may change the world it
    owns (network, cache), and it either throws or returns a promise.  A
    promise is modelled by the way it settles. *)

Record MutateOptions : Type := Options {
  mutation : Document;
  variables : gmap string JsValue
}.

Inductive Promise : Type :=
  | Fulfilled (value : JsValue)
  | Rejected (reason : JsValue).

Record ApolloClient (World : Type) : Type := Client {
  mutate : MutateOptions → World → Completion Promise * World
}.
Arguments Client {World} mutate.
Arguments mutate {World} _ _ _.

(** What running a piece of wrapper code yields: how it completes, the
    world it leaves, and the calls to [mutate] it made, in order. *)
Record Result (World A : Type) : Type := Ran {
  outcome : Completion A;
  world : World;
  calls : list MutateOptions
}.
Arguments Ran {World A} outcome world calls.
Arguments outcome {World A} _.
Arguments world {World A} _.
Arguments calls {World A} _.

Definition M (World A : Type) : Type := World → Result World A.

Section Effects.
Context {World : Type}.

#[export] Instance M_ret : MRet (M World) :=
  λ A a w, Ran (Normal a) w [].

(** Sequencing: a throw abandons the rest. *)
#[export] Instance M_bind : MBind (M World) :=
  λ A B k m w,
    let r := m w in
    match outcome r with
    | Normal a =>
        let r' := k a (world r) in
        Ran (outcome r') (world r') (calls r ++ calls r')
    | Throw e => Ran (Throw e) (world r) (calls r)
    end.

(** An expression without effect on the world. *)
Definition eval {A} (c : Completion A) : M World A :=
  λ w, Ran c w [].

(** [apollo.mutate(options)] *)
Definition apollo_mutate (apollo : ApolloClient World)
    (options : MutateOptions) : M World Promise :=
  λ w, let '(r, w') := mutate apollo options w in Ran r w' [options].

End Effects.

(** ** [ui/src/apollo/mutations.js] *)

Module Mutations.

Definition ADD_PROJECT : Document := Eval vm_compute in loaded (gql "
  mutation addProject(
    $ecosystemId: ID
    $name: String
    $title: String
    $parentId: ID
  ) {
    addProject(
      ecosystemId: $ecosystemId
      name: $name
      title: $title
      parentId: $parentId
    ) {
      project {
        id
        name
      }
    }
  }
").

Definition DELETE_PROJECT : Document := Eval vm_compute in loaded (gql "
  mutation deleteProject($id: ID) {
    deleteProject(id: $id) {
      project {
        id
      }
    }
  }
").

Definition MOVE_PROJECT : Document := Eval vm_compute in loaded (gql "
  mutation moveProject($fromProjectId: ID, $toProjectId: ID) {
    moveProject(fromProjectId: $fromProjectId, toProjectId: $toProjectId) {
      project {
        id
        name
      }
    }
  }
").

Definition UPDATE_PROJECT : Document := Eval vm_compute in loaded (gql "
  mutation updateProject($data: ProjectInputType, $id: ID) {
    updateProject(data: $data, id: $id) {
      project {
        id
        name
      }
    }
  }
").

Definition ADD_ECOSYSTEM : Document := Eval vm_compute in loaded (gql "
  mutation addEcosystem($name: String!, $title: String, $description: String) {
    addEcosystem(name: $name, title: $title, description: $description) {
      ecosystem {
        id
      }
    }
  }
").

Definition UPDATE_ECOSYSTEM : Document := Eval vm_compute in loaded (gql "
  mutation updateEcosystem($data: EcosystemInputType, $id: ID) {
    updateEcosystem(data: $data, id: $id) {
      ecosystem {
        id
      }
    }
  }
").

Definition DELETE_ECOSYSTEM : Document := Eval vm_compute in loaded (gql "
  mutation deleteEcosystem($id: ID!) {
    deleteEcosystem(id: $id) {
      ecosystem {
        id
      }
    }
  }
").

Definition TOKEN_AUTH : Document := Eval vm_compute in loaded (gql "
  mutation tokenAuth($username: String!, $password: String!) {
    tokenAuth(username: $username, password: $password) {
      token
    }
  }
").

Section Wrappers.
Context {World : Type}.
Implicit Types (apollo : ApolloClient World).
Implicit Types (data id fromProjectId toProjectId username password : JsValue).

Definition addProject apollo data : M World Promise :=
  ecosystemId ← eval (get_prop data "ecosystemId");
  name ← eval (get_prop data "name");
  title ← eval (get_prop data "title");
  parentId ← eval (get_prop data "parentId");
  response ← apollo_mutate apollo {|
    mutation := ADD_PROJECT;
    variables := {[ "ecosystemId" := ecosystemId;
                    "name" := name;
                    "title" := title;
                    "parentId" := parentId ]}
  |};
  mret response.

Definition deleteProject apollo id : M World Promise :=
  response ← apollo_mutate apollo {|
    mutation := DELETE_PROJECT;
    variables := {[ "id" := id ]}
  |};
  mret response.

Definition moveProject apollo fromProjectId toProjectId : M World Promise :=
  response ← apollo_mutate apollo {|
    mutation := MOVE_PROJECT;
    variables := {[ "fromProjectId" := fromProjectId;
                    "toProjectId" := toProjectId ]}
  |};
  mret response.

Definition updateProject apollo data id : M World Promise :=
  response ← apollo_mutate apollo {|
    mutation := UPDATE_PROJECT;
    variables := {[ "data" := data; "id" := id ]}
  |};
  mret response.

Definition addEcosystem apollo data : M World Promise :=
  name ← eval (get_prop data "name");
  title ← eval (get_prop data "title");
  description ← eval (get_prop data "description");
  response ← apollo_mutate apollo {|
    mutation := ADD_ECOSYSTEM;
    variables := {[ "name" := name;
                    "title" := title;
                    "description" := description ]}
  |};
  mret response.

Definition updateEcosystem apollo data id : M World Promise :=
  response ← apollo_mutate apollo {|
    mutation := UPDATE_ECOSYSTEM;
    variables := {[ "data" := data; "id" := id ]}
  |};
  mret response.

Definition deleteEcosystem apollo id : M World Promise :=
  response ← apollo_mutate apollo {|
    mutation := DELETE_ECOSYSTEM;
    variables := {[ "id" := id ]}
  |};
  mret response.

Definition tokenAuth apollo username password : M World Promise :=
  response ← apollo_mutate apollo {|
    mutation := TOKEN_AUTH;
    variables := {[ "username" := username; "password" := password ]}
  |};
  mret response.

End Wrappers.

End Mutations.

(** ** [unnamed/part_000]: the project mutations on their own *)

Module Part000.

Definition ADD_PROJECT : Document := Eval vm_compute in loaded (gql "
  mutation addProject(
    $ecosystemId: ID
    $name: String
    $title: String
    $parentId: ID
  ) {
    addProject(
      ecosystemId: $ecosystemId
      name: $name
      title: $title
      parentId: $parentId
    ) {
      project {
        id
        name
      }
    }
  }
").

Definition DELETE_PROJECT : Document := Eval vm_compute in loaded (gql "
  mutation deleteProject($id: ID) {
    deleteProject(id: $id) {
      project {
        id
      }
    }
  }
").

Definition MOVE_PROJECT : Document := Eval vm_compute in loaded (gql "
  mutation moveProject($fromProjectId: ID, $toProjectId: ID) {
    moveProject(fromProjectId: $fromProjectId, toProjectId: $toProjectId) {
      project {
        id
        name
      }
    }
  }
").

Definition UPDATE_PROJECT : Document := Eval vm_compute in loaded (gql "
  mutation updateProject($data: ProjectInputType, $id: ID) {
    updateProject(data: $data, id: $id) {
      project {
        id
        name
      }
    }
  }
").

Section Wrappers.
Context {World : Type}.
Implicit Types (apollo : ApolloClient World).
Implicit Types (data id fromProjectId toProjectId : JsValue).

Definition addProject apollo data : M World Promise :=
  ecosystemId ← eval (get_prop data "ecosystemId");
  name ← eval (get_prop data "name");
  title ← eval (get_prop data "title");
  parentId ← eval (get_prop data "parentId");
  response ← apollo_mutate apollo {|
    mutation := ADD_PROJECT;
    variables := {[ "ecosystemId" := ecosystemId;
                    "name" := name;
                    "title" := title;
                    "parentId" := parentId ]}
  |};
  mret response.

Definition deleteProject apollo id : M World Promise :=
  response ← apollo_mutate apollo {|
    mutation := DELETE_PROJECT;
    variables := {[ "id" := id ]}
  |};
  mret response.

Definition moveProject apollo fromProjectId toProjectId : M World Promise :=
  response ← apollo_mutate apollo {|
    mutation := MOVE_PROJECT;
    variables := {[ "fromProjectId" := fromProjectId;
                    "toProjectId" := toProjectId ]}
  |};
  mret response.

Definition updateProject apollo data id : M World Promise :=
  response ← apollo_mutate apollo {|
    mutation := UPDATE_PROJECT;
    variables := {[ "data" := data; "id" := id ]}
  |};
  mret response.

End Wrappers.

End Part000.

(** ** The documented interface

    The interface list of the specification: for each mutation its name,
    its variables (with [true] where the list writes [!]) and the fields
    it returns. *)

Record Signature : Type := Sig {
  sig_name : string;
  sig_variables : list (string * bool);
  sig_returns : list Selection
}.

Definition leaf (name : string) : Selection := Field name [] [].

Definition documented_addProject : Signature :=
  Sig "addProject"
      [("ecosystemId", false); ("name", false); ("title", false);
       ("parentId", false)]
      [Field "project" [] [leaf "id"; leaf "name"]].

Definition documented_deleteProject : Signature :=
  Sig "deleteProject" [("id", false)] [Field "project" [] [leaf "id"]].

Definition documented_moveProject : Signature :=
  Sig "moveProject" [("fromProjectId", false); ("toProjectId", false)]
      [Field "project" [] [leaf "id"; leaf "name"]].

Definition documented_updateProject : Signature :=
  Sig "updateProject" [("data", false); ("id", false)]
      [Field "project" [] [leaf "id"; leaf "name"]].

Definition documented_addEcosystem : Signature :=
  Sig "addEcosystem" [("name", true); ("title", false); ("description", false)]
      [Field "ecosystem" [] [leaf "id"]].

Definition documented_updateEcosystem : Signature :=
  Sig "updateEcosystem" [("data", false); ("id", false)]
      [Field "ecosystem" [] [leaf "id"]].

Definition documented_deleteEcosystem : Signature :=
  Sig "deleteEcosystem" [("id", true)] [Field "ecosystem" [] [leaf "id"]].

Definition documented_tokenAuth : Signature :=
  Sig "tokenAuth" [("username", true); ("password", true)] [leaf "token"].

Definition documented_interface : list Signature :=
  [documented_addProject; documented_deleteProject; documented_moveProject;
   documented_updateProject; documented_addEcosystem;
   documented_updateEcosystem; documented_deleteEcosystem;
   documented_tokenAuth].

(** The documents of [mutations.js], in the order of the interface list. *)
Definition documents : list Document :=
  [Mutations.ADD_PROJECT; Mutations.DELETE_PROJECT; Mutations.MOVE_PROJECT;
   Mutations.UPDATE_PROJECT; Mutations.ADD_ECOSYSTEM;
   Mutations.UPDATE_ECOSYSTEM; Mutations.DELETE_ECOSYSTEM;
   Mutations.TOKEN_AUTH].

(** A variable is required when its type is non-null. *)
Definition required (t : GType) : bool :=
  match t with
  | NonNullType _ => true
  | _ => false
  end.

(** The variables a document declares, with their types. *)
Definition variable_types (d : Document) : list (string * GType) :=
  op ← d; vd ← variableDefinitions op; [(variable vd, type vd)].

(** The fields selected under the top-level fields of a document. *)
Definition returned (d : Document) : list Selection :=
  op ← d; f ← op_selectionSet op;
  match f with Field _ _ sub => sub end.

(** [d] is one mutation operation named as [s] says, declaring the
    variables of [s] in order, whose single field has the same name, takes
    each variable as the argument of that name, and selects what [s]
    returns. *)
Definition requests (s : Signature) (d : Document) : Prop :=
  ∃ defs,
    d = [Operation Mutation (Some (sig_name s)) defs
           [Field (sig_name s)
                  (map (λ v, Arg v.1 v.1) (sig_variables s))
                  (sig_returns s)]]
    ∧ map variable defs = (sig_variables s).*1.

(** ** What the wrappers hand to [mutate] *)

(** The value of [data.key] where that read completes. *)
Definition prop (data : JsValue) (key : string) : JsValue :=
  match get_prop data key with
  | Normal v => v
  | Throw _ => JUndefined
  end.

(** Running a single call of [mutate] and returning its result. *)
Definition one_call {World} (apollo : ApolloClient World)
    (options : MutateOptions) (w : World) : Result World Promise :=
  Ran (mutate apollo options w).1 (mutate apollo options w).2 [options].

(** The run [r] called [mutate] exactly once, with the mutation of [s] and
    exactly the variables [bindings], which are those of [s]. *)
Definition invokes_with {World} (r : Result World Promise) (s : Signature)
    (bindings : list (string * JsValue)) : Prop :=
  ∃ options,
    calls r = [options]
    ∧ requests s (mutation options)
    ∧ variables options = list_to_map bindings
    ∧ dom (variables options) = list_to_set (sig_variables s).*1
    ∧ bindings.*1 = (sig_variables s).*1.

(** The run [r] completed as its single call of [mutate] did. *)
Definition returns_its_call {World} (apollo : ApolloClient World) (w : World)
    (r : Result World Promise) : Prop :=
  ∃ options,
    calls r = [options] ∧ outcome r = (mutate apollo options w).1.

(** The run [r] checked nothing and reported nothing of its own: it made
    its call to [mutate], on the request that carries [document] and binds
    exactly [bindings], the values as they were given; and it completed as
    that call completed: with the same promise, fulfilled or rejected, or
    with the same thrown value. *)
Definition no_error_of_its_own {World} (apollo : ApolloClient World)
    (w : World) (r : Result World Promise) (document : Document)
    (bindings : list (string * JsValue)) : Prop :=
  let request :=
    {| mutation := document; variables := list_to_map bindings |} in
  calls r = [request] ∧ outcome r = (mutate apollo request w).1.

(** The run [r] made one call, and left the world as that call left it. *)
Definition only_effect_is_one_call {World} (apollo : ApolloClient World)
    (w : World) (r : Result World Promise) : Prop :=
  ∃ options,
    calls r = [options] ∧ world r = (mutate apollo options w).2.

(** The run [r] threw the TypeError of reading [data.key] before doing
    anything. *)
Definition fails_reading {World} (data : JsValue) (key : string) (w : World)
    (r : Result World Promise) : Prop :=
  r = Ran (Throw (TypeError data key)) w [].

(** The properties of [data] that [addProject] and [addEcosystem] read. *)
Definition addProject_keys : list string :=
  ["ecosystemId"; "name"; "title"; "parentId"].
Definition addEcosystem_keys : list string :=
  ["name"; "title"; "description"].

(** ** The eight wrappers side by side *)

(** One argument for each parameter the wrappers have between them. *)
Record Inputs : Type := {
  in_project : JsValue;        (* [data] of addProject *)
  in_ecosystem : JsValue;      (* [data] of addEcosystem *)
  in_changes : JsValue;        (* [data] of the two update wrappers *)
  in_id : JsValue;
  in_fromProjectId : JsValue;
  in_toProjectId : JsValue;
  in_username : JsValue;
  in_password : JsValue
}.

(** The runs of the eight wrappers of [mutations.js] from the same world,
    in the order of [documents]. *)
Definition runs {World} (apollo : ApolloClient World) (w : World)
    (i : Inputs) : list (Result World Promise) :=
  [Mutations.addProject apollo (in_project i) w;
   Mutations.deleteProject apollo (in_id i) w;
   Mutations.moveProject apollo (in_fromProjectId i) (in_toProjectId i) w;
   Mutations.updateProject apollo (in_changes i) (in_id i) w;
   Mutations.addEcosystem apollo (in_ecosystem i) w;
   Mutations.updateEcosystem apollo (in_changes i) (in_id i) w;
   Mutations.deleteEcosystem apollo (in_id i) w;
   Mutations.tokenAuth apollo (in_username i) (in_password i) w].

(** The names of the variables a document declares. *)
Definition declared_variables (d : Document) : list string :=
  (variable_types d).*1.

(** The variables that the arguments of a field, and of the fields
    selected under it, refer to. *)
Fixpoint selection_variables (s : Selection) : list string :=
  match s with
  | Field _ args sub =>
      (arg_variable <$> args) ++ flat_map selection_variables sub
  end.

Definition used_variables (d : Document) : list string :=
  op ← d; flat_map selection_variables (op_selectionSet op).

(** Every request of the run [r] binds the variables its own document
    declares, no more and no fewer; and that document declares no
    variable twice and uses each declared variable once, in order. *)
Definition binds_what_it_declares {World} (r : Result World Promise) : Prop :=
  ∀ options, options ∈ calls r →
    dom (variables options)
    = list_to_set (declared_variables (mutation options))
    ∧ NoDup (declared_variables (mutation options))
    ∧ used_variables (mutation options)
      = declared_variables (mutation options).

(** The run [r] made its request with the variable [x], which the
    document declares non-null, bound to [v], the null or undefined it
    was given. *)
Definition sends_required_unset {World} (r : Result World Promise)
    (x : string) (v : JsValue) : Prop :=
  ∃ options t,
    calls r = [options]
    ∧ (x, NonNullType t) ∈ variable_types (mutation options)
    ∧ variables options !! x = Some v
    ∧ nullish v = true.


(** The value a request carries for a property of the form: the
    property's value, or [undefined] where the form has none. *)
Definition field_or_undefined (fields : gmap string JsValue) (key : string)
  : JsValue :=
  default JUndefined (fields !! key).

(** ** Clients to run the wrappers against *)

(** Counts the requests it gets and fulfils each with its variables. *)
Definition counting_client : ApolloClient nat :=
  Client (λ options n, (Normal (Fulfilled (JObj (variables options))), S n)).

(** Rejects every request with the same GraphQL error. *)
Definition rejecting_client : ApolloClient nat :=
  Client (λ options n, (Normal (Rejected (JStr "GraphQL error")), S n)).

(** Forms as the UI fills them: with and without a property that no
    wrapper knows. *)
Definition project_form : gmap string JsValue :=
  {[ "name" := JStr "perceval" ]}.
Definition project_form_extended : gmap string JsValue :=
  {[ "name" := JStr "perceval"; "homepage" := JStr "chaoss" ]}.
Definition ecosystem_form : gmap string JsValue :=
  {[ "name" := JStr "grimoirelab" ]}.
Definition ecosystem_form_extended : gmap string JsValue :=
  {[ "name" := JStr "grimoirelab"; "stars" := JNum 7 ]}.

(** Inputs naming project 3 throughout. *)
Definition sample_inputs : Inputs :=
  {| in_project := JObj project_form;
     in_ecosystem := JObj ecosystem_form;
     in_changes := JObj project_form_extended;
     in_id := JStr "3";
     in_fromProjectId := JStr "3";
     in_toProjectId := JStr "2";
     in_username := JStr "admin";
     in_password := JStr "secret" |}.

(** The request that deletes project 3. *)
Definition delete_project_3 : MutateOptions :=
  {| mutation := Mutations.DELETE_PROJECT;
     variables := {[ "id" := JStr "3" ]} |}.

(** ** The backend behind the client *)

Module Backend.

(** Modelled from the spec: the Project entity of the data model (the
    backend's relational schema is not part of the sources); ids are
    GraphQL IDs, carried as strings, and a project without parent is a
    root of its ecosystem. *)
Record Project : Type := {
  project_id : string;
  project_name : string;
  project_title : string;
  project_parentId : option string;
  project_ecosystemId : string
}.

(** Modelled from the spec: the relational store, as the projects by id. *)
Abbreviation Store := (gmap string Project).

(** Modelled from the spec: re-parenting, the one change a move makes. *)
Definition reparent (p : Project) (parent : option string) : Project :=
  {| project_id := project_id p;
     project_name := project_name p;
     project_title := project_title p;
     project_parentId := parent;
     project_ecosystemId := project_ecosystemId p |}.

(** Modelled from the spec: the payload the interface list gives for
    moveProject, [{project{id,name}}]. *)
Definition project_payload (p : Project) : JsValue :=
  JObj {[ "data" := JObj {[ "moveProject" := JObj {[ "project" :=
    JObj {[ "id" := JStr (project_id p);
            "name" := JStr (project_name p) ]} ]} ]} ]}.

(** Modelled from the spec: the backend resolver of moveProject, which is
    not part of the sources.  It re-parents the project [from] under [to]
    (under the root when [to] is null or absent); an unknown project is a
    not-found error, and a parent outside the project's ecosystem a
    validation failure, both leaving the store as it was. *)
Definition resolve_moveProject (from to : JsValue) (store : Store)
  : Promise * Store :=
  match from with
  | JStr f =>
      match store !! f with
      | None => (Rejected (JStr "not found"), store)
      | Some p =>
          match to with
          | JNull | JUndefined =>
              (Fulfilled (project_payload p), <[f := reparent p None]> store)
          | JStr t =>
              match store !! t with
              | None => (Rejected (JStr "not found"), store)
              | Some q =>
                  if decide (project_ecosystemId q = project_ecosystemId p)
                  then (Fulfilled (project_payload p),
                        <[f := reparent p (Some t)]> store)
                  else (Rejected (JStr "validation failure"), store)
              end
          | _ => (Rejected (JStr "validation failure"), store)
          end
      end
  | _ => (Rejected (JStr "validation failure"), store)
  end.

(** Modelled from the spec: the value a field argument gets from the
    variables of the request; a variable left out is null. *)
Definition argument (args : list Argument) (vars : gmap string JsValue)
    (name : string) : JsValue :=
  match find (λ a, String.eqb (arg_name a) name) args with
  | Some a => default JNull (vars !! arg_variable a)
  | None => JNull
  end.

(** Modelled from the spec: a client whose [mutate] reaches the backend.
    A request whose field is moveProject goes to the resolver above; how
    the backend resolves every other request is left open ([others]). *)
Definition client (others : MutateOptions → Store → Completion Promise * Store)
  : ApolloClient Store :=
  Client (λ options store,
    match mutation options with
    | [Operation Mutation _ _ [Field "moveProject" args _]] =>
        let '(p, store') :=
          resolve_moveProject
            (argument args (variables options) "fromProjectId")
            (argument args (variables options) "toProjectId") store in
        (Normal p, store')
    | _ => others options store
    end).

(** Modelled from the spec: a small tree of projects, all in ecosystem 7:
    perceval and sortinghat are roots, arthur is under perceval. *)
Definition sample_store : Store :=
  {[ "1" := {| project_id := "1"; project_name := "perceval";
               project_title := "Perceval"; project_parentId := None;
               project_ecosystemId := "7" |};
     "2" := {| project_id := "2"; project_name := "sortinghat";
               project_title := "SortingHat"; project_parentId := None;
               project_ecosystemId := "7" |};
     "3" := {| project_id := "3"; project_name := "arthur";
               project_title := "Arthur"; project_parentId := Some "1";
               project_ecosystemId := "7" |} ]}.

(** Two projects that differ at most in their parent. *)
Definition same_but_parent (p p' : Project) : Prop :=
  project_id p' = project_id p
  ∧ project_name p' = project_name p
  ∧ project_title p' = project_title p
  ∧ project_ecosystemId p' = project_ecosystemId p.

End Backend.

(** ** Basic facts about the wrappers *)

Section Running.
Context {World : Type}.
Implicit Types (apollo : ApolloClient World) (w : World).
Implicit Types (data id fromProjectId toProjectId username password : JsValue).

Lemma mutate_then_return apollo options w :
  (response ← apollo_mutate apollo options; mret response) w
  = one_call apollo options w.
Proof.
  unfold mbind, M_bind, mret, M_ret, apollo_mutate, one_call.
  by destruct (mutate apollo options w) as [[p|e] w'].
Qed.

Lemma eval_normal {A B} (v : A) (k : A → M World B) w :
  (eval (Normal v) ≫= k) w = k v w.
Proof.
  unfold mbind, M_bind, eval; simpl. by destruct (k v w).
Qed.

Lemma eval_throw {A B} (e : Exn) (k : A → M World B) w :
  (eval (Throw e) ≫= k) w = Ran (Throw e) w [].
Proof. reflexivity. Qed.

Lemma get_prop_nullish data key :
  nullish data = true → get_prop data key = Throw (TypeError data key).
Proof. by destruct data. Qed.

Lemma get_prop_defined data key :
  nullish data = false → get_prop data key = Normal (prop data key).
Proof.
  intros Hd. unfold prop.
  destruct (get_prop data key) eqn:Hg; [done|].
  destruct data; try discriminate;
    simpl in Hg; repeat case_match; discriminate.
Qed.

Lemma prop_object fields key :
  prop (JObj fields) key = default JUndefined (fields !! key).
Proof. reflexivity. Qed.

(** *** Each wrapper, run *)

Lemma addProject_run apollo data w :
  nullish data = false →
  Mutations.addProject apollo data w
  = one_call apollo
      {| mutation := Mutations.ADD_PROJECT;
         variables := {[ "ecosystemId" := prop data "ecosystemId";
                         "name" := prop data "name";
                         "title" := prop data "title";
                         "parentId" := prop data "parentId" ]} |} w.
Proof.
  intros Hd. unfold Mutations.addProject.
  rewrite !(get_prop_defined data _ Hd), !eval_normal.
  apply mutate_then_return.
Qed.

Lemma addProject_fails apollo data w :
  nullish data = true →
  fails_reading data "ecosystemId" w (Mutations.addProject apollo data w).
Proof.
  intros Hd. unfold fails_reading, Mutations.addProject.
  by rewrite (get_prop_nullish data "ecosystemId" Hd), eval_throw.
Qed.

Lemma addEcosystem_run apollo data w :
  nullish data = false →
  Mutations.addEcosystem apollo data w
  = one_call apollo
      {| mutation := Mutations.ADD_ECOSYSTEM;
         variables := {[ "name" := prop data "name";
                         "title" := prop data "title";
                         "description" := prop data "description" ]} |} w.
Proof.
  intros Hd. unfold Mutations.addEcosystem.
  rewrite !(get_prop_defined data _ Hd), !eval_normal.
  apply mutate_then_return.
Qed.

Lemma addEcosystem_fails apollo data w :
  nullish data = true →
  fails_reading data "name" w (Mutations.addEcosystem apollo data w).
Proof.
  intros Hd. unfold fails_reading, Mutations.addEcosystem.
  by rewrite (get_prop_nullish data "name" Hd), eval_throw.
Qed.

Lemma deleteProject_run apollo id w :
  Mutations.deleteProject apollo id w
  = one_call apollo
      {| mutation := Mutations.DELETE_PROJECT;
         variables := {[ "id" := id ]} |} w.
Proof. apply mutate_then_return. Qed.

Lemma moveProject_run apollo fromProjectId toProjectId w :
  Mutations.moveProject apollo fromProjectId toProjectId w
  = one_call apollo
      {| mutation := Mutations.MOVE_PROJECT;
         variables := {[ "fromProjectId" := fromProjectId;
                         "toProjectId" := toProjectId ]} |} w.
Proof. apply mutate_then_return. Qed.

Lemma updateProject_run apollo data id w :
  Mutations.updateProject apollo data id w
  = one_call apollo
      {| mutation := Mutations.UPDATE_PROJECT;
         variables := {[ "data" := data; "id" := id ]} |} w.
Proof. apply mutate_then_return. Qed.

Lemma updateEcosystem_run apollo data id w :
  Mutations.updateEcosystem apollo data id w
  = one_call apollo
      {| mutation := Mutations.UPDATE_ECOSYSTEM;
         variables := {[ "data" := data; "id" := id ]} |} w.
Proof. apply mutate_then_return. Qed.

Lemma deleteEcosystem_run apollo id w :
  Mutations.deleteEcosystem apollo id w
  = one_call apollo
      {| mutation := Mutations.DELETE_ECOSYSTEM;
         variables := {[ "id" := id ]} |} w.
Proof. apply mutate_then_return. Qed.

Lemma tokenAuth_run apollo username password w :
  Mutations.tokenAuth apollo username password w
  = one_call apollo
      {| mutation := Mutations.TOKEN_AUTH;
         variables := {[ "username" := username;
                         "password" := password ]} |} w.
Proof. apply mutate_then_return. Qed.

(** *** A single call has each of the properties of interest *)

Lemma one_call_returns apollo options w :
  returns_its_call apollo w (one_call apollo options w).
Proof. by exists options. Qed.

Lemma one_call_no_error apollo document (vars : gmap string JsValue) bindings w :
  vars = list_to_map bindings →
  no_error_of_its_own apollo w
    (one_call apollo {| mutation := document; variables := vars |} w)
    document bindings.
Proof. by intros ->. Qed.

Lemma one_call_only_effect apollo options w :
  only_effect_is_one_call apollo w (one_call apollo options w).
Proof. by exists options. Qed.

Lemma failed_read_no_call data key w (r : Result World Promise) :
  fails_reading data key w r → calls r = [].
Proof. by intros ->. Qed.

End Running.

Create Rewrite HintDb wrappers.
#[local] Hint Rewrite @deleteProject_run @moveProject_run @updateProject_run
  @updateEcosystem_run @deleteEcosystem_run @tokenAuth_run : wrappers.

(** Splits a goal that depends on whether [data] can be read from. *)
Ltac by_nullish data :=
  let Hd := fresh "Hd" in
  destruct (nullish data) eqn:Hd;
  [ first [ by apply addProject_fails | by apply addEcosystem_fails | idtac ]
  | first [ rewrite (addProject_run _ data _ Hd)
          | rewrite (addEcosystem_run _ data _ Hd) ] ].

(** Closes [invokes_with] for a single call of known options. *)
Ltac invoked :=
  eexists; split; [reflexivity|];
  split; [eexists; split; reflexivity|];
  split; [reflexivity|];
  split; [simpl; set_solver|reflexivity].

(** ** The documents *)

Lemma documents_are_single_mutations :
  Forall2 (λ s d, requests s d) documented_interface documents.
Proof. repeat constructor; by eexists. Qed.

(** C5: the documents mark a variable as required exactly where the
    interface list writes [!].  addEcosystem declares name as [String!],
    title and description as plain [String], and selects only
    ecosystem{id}; deleteEcosystem declares id as [ID!]; every variable of
    the four project mutations, the id of deleteProject included, is
    nullable. *)
Theorem documents_mark_required_variables :
  variable_types Mutations.ADD_ECOSYSTEM
  = [("name", NonNullType (NamedType "String"));
     ("title", NamedType "String");
     ("description", NamedType "String")]
  ∧ returned Mutations.ADD_ECOSYSTEM = [Field "ecosystem" [] [leaf "id"]]
  ∧ variable_types Mutations.DELETE_ECOSYSTEM
    = [("id", NonNullType (NamedType "ID"))]
  ∧ Forall (λ d, Forall (λ vt, required vt.2 = false) (variable_types d))
      [Mutations.ADD_PROJECT; Mutations.DELETE_PROJECT;
       Mutations.MOVE_PROJECT; Mutations.UPDATE_PROJECT]
  ∧ Forall2 (λ s d, map (λ vt, (vt.1, required vt.2)) (variable_types d)
                    = sig_variables s)
      documented_interface documents.
Proof.
  repeat split; try reflexivity; repeat constructor.
Qed.

Section Claims.
Context {World : Type}.
Implicit Types (apollo : ApolloClient World) (w : World).
Implicit Types (project ecosystem changes id : JsValue).
Implicit Types (fromProjectId toProjectId username password : JsValue).

(** C1, amended: each wrapper calls [mutate] with the documented
    mutation (name, field, arguments, selection) and exactly the
    documented variables, bound to its arguments, or for addProject and
    addEcosystem to the fields of [data].  The exception is null or
    undefined [data] in those two: the first property read throws and
    [mutate] is not reached. *)
Theorem wrappers_send_documented_mutation apollo w project ecosystem changes
    id fromProjectId toProjectId username password :
  (if nullish project
   then fails_reading project "ecosystemId" w
          (Mutations.addProject apollo project w)
   else invokes_with (Mutations.addProject apollo project w)
          documented_addProject
          [("ecosystemId", prop project "ecosystemId");
           ("name", prop project "name");
           ("title", prop project "title");
           ("parentId", prop project "parentId")])
  ∧ invokes_with (Mutations.deleteProject apollo id w)
      documented_deleteProject [("id", id)]
  ∧ invokes_with (Mutations.moveProject apollo fromProjectId toProjectId w)
      documented_moveProject
      [("fromProjectId", fromProjectId); ("toProjectId", toProjectId)]
  ∧ invokes_with (Mutations.updateProject apollo changes id w)
      documented_updateProject [("data", changes); ("id", id)]
  ∧ (if nullish ecosystem
     then fails_reading ecosystem "name" w
            (Mutations.addEcosystem apollo ecosystem w)
     else invokes_with (Mutations.addEcosystem apollo ecosystem w)
            documented_addEcosystem
            [("name", prop ecosystem "name");
             ("title", prop ecosystem "title");
             ("description", prop ecosystem "description")])
  ∧ invokes_with (Mutations.updateEcosystem apollo changes id w)
      documented_updateEcosystem [("data", changes); ("id", id)]
  ∧ invokes_with (Mutations.deleteEcosystem apollo id w)
      documented_deleteEcosystem [("id", id)]
  ∧ invokes_with (Mutations.tokenAuth apollo username password w)
      documented_tokenAuth
      [("username", username); ("password", password)].
Proof.
  autorewrite with wrappers.
  repeat split; try invoked.
  - by_nullish project. invoked.
  - by_nullish ecosystem. invoked.
Qed.

(** C2, amended: each wrapper completes exactly as its single call of
    [mutate] completed: the same promise, fulfilled or rejected, or the
    same thrown value.  The exception is null or undefined [data] in
    addProject and addEcosystem, where the wrapper throws the TypeError
    of the property read and there is no call whose result it could
    return. *)
Theorem wrappers_return_mutate_result apollo w project ecosystem changes
    id fromProjectId toProjectId username password :
  (if nullish project
   then fails_reading project "ecosystemId" w
          (Mutations.addProject apollo project w)
   else returns_its_call apollo w (Mutations.addProject apollo project w))
  ∧ returns_its_call apollo w (Mutations.deleteProject apollo id w)
  ∧ returns_its_call apollo w
      (Mutations.moveProject apollo fromProjectId toProjectId w)
  ∧ returns_its_call apollo w (Mutations.updateProject apollo changes id w)
  ∧ (if nullish ecosystem
     then fails_reading ecosystem "name" w
            (Mutations.addEcosystem apollo ecosystem w)
     else returns_its_call apollo w
            (Mutations.addEcosystem apollo ecosystem w))
  ∧ returns_its_call apollo w (Mutations.updateEcosystem apollo changes id w)
  ∧ returns_its_call apollo w (Mutations.deleteEcosystem apollo id w)
  ∧ returns_its_call apollo w
      (Mutations.tokenAuth apollo username password w).
Proof.
  autorewrite with wrappers.
  repeat split; try apply one_call_returns.
  - by_nullish project. apply one_call_returns.
  - by_nullish ecosystem. apply one_call_returns.
Qed.

(** C6, amended: no wrapper validates its inputs.  Whatever the fields
    of [data] are (absent, null, of any shape), and whatever [id],
    [username] and [password] are, the wrapper still makes its call to
    [mutate], handing over the values as they came, and raises no error
    of its own: it completes exactly as that call completed, so that a
    violation of any constraint is reported only through the result of
    the call (a rejected promise or a thrown value), never added, replaced
    or dropped by the wrapper.  The exception is [data] itself being null
    or undefined in addProject and addEcosystem: the property read throws
    a TypeError before any call. *)
Theorem wrappers_do_not_validate apollo w project ecosystem changes
    id fromProjectId toProjectId username password :
  (if nullish project
   then fails_reading project "ecosystemId" w
          (Mutations.addProject apollo project w)
   else no_error_of_its_own apollo w (Mutations.addProject apollo project w)
          Mutations.ADD_PROJECT
          [("ecosystemId", prop project "ecosystemId");
           ("name", prop project "name");
           ("title", prop project "title");
           ("parentId", prop project "parentId")])
  ∧ no_error_of_its_own apollo w (Mutations.deleteProject apollo id w)
      Mutations.DELETE_PROJECT [("id", id)]
  ∧ no_error_of_its_own apollo w
      (Mutations.moveProject apollo fromProjectId toProjectId w)
      Mutations.MOVE_PROJECT
      [("fromProjectId", fromProjectId); ("toProjectId", toProjectId)]
  ∧ no_error_of_its_own apollo w
      (Mutations.updateProject apollo changes id w)
      Mutations.UPDATE_PROJECT [("data", changes); ("id", id)]
  ∧ (if nullish ecosystem
     then fails_reading ecosystem "name" w
            (Mutations.addEcosystem apollo ecosystem w)
     else no_error_of_its_own apollo w
            (Mutations.addEcosystem apollo ecosystem w)
            Mutations.ADD_ECOSYSTEM
            [("name", prop ecosystem "name");
             ("title", prop ecosystem "title");
             ("description", prop ecosystem "description")])
  ∧ no_error_of_its_own apollo w
      (Mutations.updateEcosystem apollo changes id w)
      Mutations.UPDATE_ECOSYSTEM [("data", changes); ("id", id)]
  ∧ no_error_of_its_own apollo w (Mutations.deleteEcosystem apollo id w)
      Mutations.DELETE_ECOSYSTEM [("id", id)]
  ∧ no_error_of_its_own apollo w
      (Mutations.tokenAuth apollo username password w)
      Mutations.TOKEN_AUTH [("username", username); ("password", password)].
Proof.
  autorewrite with wrappers.
  repeat apply conj; try by apply one_call_no_error.
  - by_nullish project. by apply one_call_no_error.
  - by_nullish ecosystem. by apply one_call_no_error.
Qed.

(** C7, amended: each wrapper makes exactly one call to [mutate], on
    the world as it found it, and leaves the world as that call left
    it.  The exception is null or undefined [data] in addProject and
    addEcosystem: then no call is made at all and the world is
    untouched. *)
Theorem wrappers_make_one_call apollo w project ecosystem changes
    id fromProjectId toProjectId username password :
  (if nullish project
   then fails_reading project "ecosystemId" w
          (Mutations.addProject apollo project w)
   else only_effect_is_one_call apollo w
          (Mutations.addProject apollo project w))
  ∧ only_effect_is_one_call apollo w (Mutations.deleteProject apollo id w)
  ∧ only_effect_is_one_call apollo w
      (Mutations.moveProject apollo fromProjectId toProjectId w)
  ∧ only_effect_is_one_call apollo w
      (Mutations.updateProject apollo changes id w)
  ∧ (if nullish ecosystem
     then fails_reading ecosystem "name" w
            (Mutations.addEcosystem apollo ecosystem w)
     else only_effect_is_one_call apollo w
            (Mutations.addEcosystem apollo ecosystem w))
  ∧ only_effect_is_one_call apollo w
      (Mutations.updateEcosystem apollo changes id w)
  ∧ only_effect_is_one_call apollo w (Mutations.deleteEcosystem apollo id w)
  ∧ only_effect_is_one_call apollo w
      (Mutations.tokenAuth apollo username password w).
Proof.
  autorewrite with wrappers.
  repeat split; try apply one_call_only_effect.
  - by_nullish project. apply one_call_only_effect.
  - by_nullish ecosystem. apply one_call_only_effect.
Qed.

(** C8: the four project wrappers of [unnamed/part_000] are
    extensionally equal to those of [mutations.js]: the documents are
    the same, and on every client, world and input the two runs agree
    in the calls made, the result and the world left. *)
Theorem part000_agrees_with_mutations apollo w project changes id
    fromProjectId toProjectId :
  Part000.ADD_PROJECT = Mutations.ADD_PROJECT
  ∧ Part000.DELETE_PROJECT = Mutations.DELETE_PROJECT
  ∧ Part000.MOVE_PROJECT = Mutations.MOVE_PROJECT
  ∧ Part000.UPDATE_PROJECT = Mutations.UPDATE_PROJECT
  ∧ Part000.addProject apollo project w
    = Mutations.addProject apollo project w
  ∧ Part000.deleteProject apollo id w = Mutations.deleteProject apollo id w
  ∧ Part000.moveProject apollo fromProjectId toProjectId w
    = Mutations.moveProject apollo fromProjectId toProjectId w
  ∧ Part000.updateProject apollo changes id w
    = Mutations.updateProject apollo changes id w.
Proof. repeat split. Qed.

End Claims.

(** ** Null and undefined [data] *)

(** C1, as stated, fails: given undefined [data], addProject calls
    [mutate] with nothing at all. *)
Lemma addProject_undefined_invokes_nothing :
  ¬ ∃ bindings,
      invokes_with (Mutations.addProject counting_client JUndefined 0%nat)
        documented_addProject bindings.
Proof. intros (bindings & options & Hcalls & _). discriminate Hcalls. Qed.

(** C2, as stated, fails: given null [data], addEcosystem does not
    complete with the result of a call to [mutate]; it made none. *)
Lemma addEcosystem_null_returns_no_call :
  ¬ returns_its_call counting_client 0%nat
      (Mutations.addEcosystem counting_client JNull 0%nat).
Proof. intros (options & Hcalls & _). discriminate Hcalls. Qed.

(** C6, as stated, fails: given null [data], addProject throws a
    TypeError on the client side, having made no request. *)
Lemma addProject_null_throws_client_side :
  Mutations.addProject counting_client JNull 0%nat
  = Ran (Throw (TypeError JNull "ecosystemId")) 0%nat [].
Proof. reflexivity. Qed.

(** C7, as stated, fails: given undefined [data], addEcosystem makes no
    call to [mutate], not one. *)
Lemma addEcosystem_undefined_makes_no_call :
  length (calls (Mutations.addEcosystem counting_client JUndefined 0%nat)) ≠ 1%nat.
Proof. discriminate. Qed.

(** ** What the wrappers read and send *)

Section Reads.
Context {World : Type}.
Implicit Types (apollo : ApolloClient World) (w : World).

Lemma prop_agree (fields fields' : gmap string JsValue) keys key :
  Forall (λ k, fields !! k = fields' !! k) keys →
  key ∈ keys →
  prop (JObj fields) key = prop (JObj fields') key.
Proof.
  intros Hall Hin. rewrite !prop_object.
  by rewrite (proj1 (Forall_forall _ _) Hall key Hin).
Qed.

(** C9: addProject reads only ecosystemId, name, title and parentId of
    [data], and addEcosystem only name, title and description: two
    objects that agree on those properties give the same run, and the
    variables sent have exactly those names, so no other property of
    [data] is among them. *)
Theorem add_wrappers_ignore_other_properties apollo w
    (project project' ecosystem ecosystem' : gmap string JsValue) :
  Forall (λ k, project !! k = project' !! k) addProject_keys →
  Forall (λ k, ecosystem !! k = ecosystem' !! k) addEcosystem_keys →
  Mutations.addProject apollo (JObj project) w
  = Mutations.addProject apollo (JObj project') w
  ∧ (∀ options,
       options ∈ calls (Mutations.addProject apollo (JObj project) w) →
       dom (variables options) = list_to_set addProject_keys)
  ∧ Mutations.addEcosystem apollo (JObj ecosystem) w
    = Mutations.addEcosystem apollo (JObj ecosystem') w
  ∧ (∀ options,
       options ∈ calls (Mutations.addEcosystem apollo (JObj ecosystem) w) →
       dom (variables options) = list_to_set addEcosystem_keys).
Proof.
  intros Hp He.
  rewrite !addProject_run, !addEcosystem_run by done.
  repeat split.
  - rewrite !(prop_agree project project' addProject_keys) by
      (done || unfold addProject_keys; set_solver).
    done.
  - intros options ->%list_elem_of_singleton. simpl. set_solver.
  - rewrite !(prop_agree ecosystem ecosystem' addEcosystem_keys) by
      (done || unfold addEcosystem_keys; set_solver).
    done.
  - intros options ->%list_elem_of_singleton. simpl. set_solver.
Qed.

End Reads.

(** A form with a property the wrappers do not know runs like the form
    without it. *)
Lemma add_wrappers_ignore_other_properties_witness :
  Forall (λ k, project_form_extended !! k = project_form !! k) addProject_keys
  ∧ Forall (λ k, ecosystem_form_extended !! k = ecosystem_form !! k)
      addEcosystem_keys
  ∧ Mutations.addProject counting_client (JObj project_form_extended) 0%nat
    = Mutations.addProject counting_client (JObj project_form) 0%nat
  ∧ Mutations.addEcosystem counting_client (JObj ecosystem_form_extended) 0%nat
    = Mutations.addEcosystem counting_client (JObj ecosystem_form) 0%nat.
Proof.
  assert (Hp : Forall (λ k, project_form_extended !! k = project_form !! k)
                 addProject_keys) by (repeat constructor).
  assert (He : Forall (λ k, ecosystem_form_extended !! k = ecosystem_form !! k)
                 addEcosystem_keys) by (repeat constructor).
  destruct (add_wrappers_ignore_other_properties counting_client 0%nat
              project_form_extended project_form
              ecosystem_form_extended ecosystem_form Hp He)
    as (Hrun & _ & Hrun' & _).
  repeat split; assumption.
Defined.

(** C10: what a wrapper sends is a function of its arguments alone: the
    calls made are the same whatever the client and whatever the state of
    the world, and tokenAuth hands over [username] and [password] as they
    came, under those two names and no other. *)
Theorem wrappers_send_by_arguments_alone
    {World1 World2 : Type}
    (apollo1 : ApolloClient World1) (apollo2 : ApolloClient World2)
    (w1 : World1) (w2 : World2)
    (project ecosystem changes id fromProjectId toProjectId
       username password : JsValue) :
  calls (Mutations.addProject apollo1 project w1)
  = calls (Mutations.addProject apollo2 project w2)
  ∧ calls (Mutations.deleteProject apollo1 id w1)
    = calls (Mutations.deleteProject apollo2 id w2)
  ∧ calls (Mutations.moveProject apollo1 fromProjectId toProjectId w1)
    = calls (Mutations.moveProject apollo2 fromProjectId toProjectId w2)
  ∧ calls (Mutations.updateProject apollo1 changes id w1)
    = calls (Mutations.updateProject apollo2 changes id w2)
  ∧ calls (Mutations.addEcosystem apollo1 ecosystem w1)
    = calls (Mutations.addEcosystem apollo2 ecosystem w2)
  ∧ calls (Mutations.updateEcosystem apollo1 changes id w1)
    = calls (Mutations.updateEcosystem apollo2 changes id w2)
  ∧ calls (Mutations.deleteEcosystem apollo1 id w1)
    = calls (Mutations.deleteEcosystem apollo2 id w2)
  ∧ calls (Mutations.tokenAuth apollo1 username password w1)
    = calls (Mutations.tokenAuth apollo2 username password w2)
  ∧ calls (Mutations.tokenAuth apollo1 username password w1)
    = [ {| mutation := Mutations.TOKEN_AUTH;
           variables := {[ "username" := username;
                           "password" := password ]} |} ].
Proof.
  autorewrite with wrappers.
  repeat split.
  - destruct (nullish project) eqn:Hd.
    + by rewrite (failed_read_no_call _ _ _ _ (addProject_fails apollo1 _ w1 Hd)),
        (failed_read_no_call _ _ _ _ (addProject_fails apollo2 _ w2 Hd)).
    + by rewrite !addProject_run.
  - destruct (nullish ecosystem) eqn:Hd.
    + by rewrite (failed_read_no_call _ _ _ _ (addEcosystem_fails apollo1 _ w1 Hd)),
        (failed_read_no_call _ _ _ _ (addEcosystem_fails apollo2 _ w2 Hd)).
    + by rewrite !addEcosystem_run.
Qed.

(** ** moveProject against the backend *)

Section Move.
Variable others : MutateOptions → Backend.Store → Completion Promise * Backend.Store.
Implicit Types (store : Backend.Store) (fromProjectId toProjectId : JsValue).

Lemma moveProject_reaches_resolver fromProjectId toProjectId store :
  Mutations.moveProject (Backend.client others) fromProjectId toProjectId store
  = let '(p, store') :=
      Backend.resolve_moveProject fromProjectId toProjectId store in
    Ran (Normal p) store'
      [ {| mutation := Mutations.MOVE_PROJECT;
           variables := {[ "fromProjectId" := fromProjectId;
                           "toProjectId" := toProjectId ]} |} ].
Proof.
  rewrite moveProject_run. unfold one_call, Backend.client; cbn.
  unfold Backend.argument; cbn.
  rewrite lookup_insert_eq, lookup_insert_ne, lookup_singleton_eq by done.
  cbn. by destruct Backend.resolve_moveProject.
Qed.

Lemma reparent_same_but_parent p parent :
  Backend.same_but_parent p (Backend.reparent p parent).
Proof. by repeat split. Qed.

Lemma same_but_parent_refl p : Backend.same_but_parent p p.
Proof. by repeat split. Qed.

Lemma resolver_frame fromProjectId toProjectId store :
  let store' :=
    (Backend.resolve_moveProject fromProjectId toProjectId store).2 in
  store' = store
  ∨ ∃ f p parent, fromProjectId = JStr f ∧ store !! f = Some p
                  ∧ store' = <[f := Backend.reparent p parent]> store.
Proof.
  unfold Backend.resolve_moveProject.
  destruct fromProjectId as [| | | |f| |]; try by left.
  destruct (store !! f) as [p|] eqn:Hf; [|by left].
  destruct toProjectId as [| | | |t| |]; try by left.
  - right. by exists f, p, None.
  - right. by exists f, p, None.
  - destruct (store !! t) as [q|]; [|by left].
    case_decide; [|by left].
    right. by exists f, p, (Some t).
Qed.

(** C4: against the backend, moveProject(from, to) creates and deletes
    no project, leaves every project other than the moved one as it
    was, and leaves the moved one with the id, name, title and
    ecosystem it had: only its parent can differ. *)
Theorem moveProject_alters_only_parent fromProjectId toProjectId store :
  let store' :=
    world (Mutations.moveProject (Backend.client others)
             fromProjectId toProjectId store) in
  dom store' = dom store
  ∧ ∀ pid p, store !! pid = Some p →
      ∃ p', store' !! pid = Some p'
            ∧ Backend.same_but_parent p p'
            ∧ (fromProjectId ≠ JStr pid → p' = p).
Proof.
  rewrite moveProject_reaches_resolver.
  pose proof (resolver_frame fromProjectId toProjectId store) as Hframe.
  destruct (Backend.resolve_moveProject fromProjectId toProjectId store)
    as [promise store']; simpl in *.
  destruct Hframe as [->|(f & q & parent & -> & Hf & ->)].
  - split; [done|]. intros pid p Hp. exists p.
    split; [done|]. split; [apply same_but_parent_refl|done].
  - split.
    + apply dom_insert_lookup_L. by exists q.
    + intros pid p Hp. destruct (decide (f = pid)) as [->|Hne].
      * rewrite lookup_insert_eq. exists (Backend.reparent q parent).
        assert (q = p) as -> by congruence.
        split; [done|]. split; [apply reparent_same_but_parent|done].
      * rewrite lookup_insert_ne by done. exists p.
        split; [done|]. split; [apply same_but_parent_refl|done].
Qed.

End Move.

(** ** The wrappers on concrete inputs *)

Example ADD_ECOSYSTEM_parsed :
  Mutations.ADD_ECOSYSTEM
  = [ {| operation := Mutation;
         op_name := Some "addEcosystem";
         variableDefinitions :=
           [VarDef "name" (NonNullType (NamedType "String"));
            VarDef "title" (NamedType "String");
            VarDef "description" (NamedType "String")];
         op_selectionSet :=
           [Field "addEcosystem"
              [Arg "name" "name"; Arg "title" "title";
               Arg "description" "description"]
              [Field "ecosystem" [] [leaf "id"]]] |} ].
Proof. reflexivity. Qed.

Example gql_rejects_an_empty_selection :
  gql "mutation m { }" = None.
Proof. reflexivity. Qed.

(** Fields missing from the form are sent as [undefined]. *)
Example addProject_of_a_form :
  Mutations.addProject counting_client (JObj project_form) 0%nat
  = let vars : gmap string JsValue :=
      {[ "ecosystemId" := JUndefined; "name" := JStr "perceval";
         "title" := JUndefined; "parentId" := JUndefined ]} in
    Ran (Normal (Fulfilled (JObj vars))) 1%nat
        [ {| mutation := Mutations.ADD_PROJECT; variables := vars |} ].
Proof. reflexivity. Qed.

(** A number in place of the form: every read is [undefined], and the
    request goes out all the same. *)
Example addEcosystem_of_a_number :
  calls (Mutations.addEcosystem counting_client (JNum 5) 0%nat)
  = [ {| mutation := Mutations.ADD_ECOSYSTEM;
         variables := {[ "name" := JUndefined; "title" := JUndefined;
                         "description" := JUndefined ]} |} ].
Proof. reflexivity. Qed.

(** A rejection reaches the caller as it left the client. *)
Example tokenAuth_rejected :
  outcome (Mutations.tokenAuth rejecting_client (JStr "admin") JNull 0%nat)
  = Normal (Rejected (JStr "GraphQL error")).
Proof. reflexivity. Qed.

(** Moving arthur from perceval to sortinghat. *)
Example move_arthur others :
  world (Mutations.moveProject (Backend.client others) (JStr "3") (JStr "2")
           Backend.sample_store)
  = <[ "3" := {| Backend.project_id := "3";
                 Backend.project_name := "arthur";
                 Backend.project_title := "Arthur";
                 Backend.project_parentId := Some "2";
                 Backend.project_ecosystemId := "7" |} ]> Backend.sample_store.
Proof. by rewrite moveProject_reaches_resolver. Qed.

(** A move to a project that does not exist changes nothing. *)
Example move_arthur_nowhere others :
  Mutations.moveProject (Backend.client others) (JStr "3") (JStr "9")
    Backend.sample_store
  = Ran (Normal (Rejected (JStr "not found"))) Backend.sample_store
      [ {| mutation := Mutations.MOVE_PROJECT;
           variables := {[ "fromProjectId" := JStr "3";
                           "toProjectId" := JStr "9" ]} |} ].
Proof. by rewrite moveProject_reaches_resolver. Qed.

(** ** Requests and the documents they carry *)

(** Case analysis on an index [i] into a list written out in [H]; [tac]
    runs in the case of each element. *)
Ltac each_index i H tac :=
  first [ discriminate H
        | destruct i as [|i]; [tac | simpl in H; each_index i H tac] ].

Section Requests.
Context {World : Type}.
Implicit Types (apollo : ApolloClient World) (w : World) (data : JsValue).
Implicit Types (inputs : Inputs).

Lemma addProject_calls apollo data w :
  calls (Mutations.addProject apollo data w)
  = if nullish data then []
    else [ {| mutation := Mutations.ADD_PROJECT;
              variables := {[ "ecosystemId" := prop data "ecosystemId";
                              "name" := prop data "name";
                              "title" := prop data "title";
                              "parentId" := prop data "parentId" ]} |} ].
Proof.
  destruct (nullish data) eqn:Hd.
  - by rewrite (failed_read_no_call _ _ _ _ (addProject_fails apollo _ w Hd)).
  - by rewrite addProject_run.
Qed.

Lemma addEcosystem_calls apollo data w :
  calls (Mutations.addEcosystem apollo data w)
  = if nullish data then []
    else [ {| mutation := Mutations.ADD_ECOSYSTEM;
              variables := {[ "name" := prop data "name";
                              "title" := prop data "title";
                              "description" := prop data "description" ]} |} ].
Proof.
  destruct (nullish data) eqn:Hd.
  - by rewrite (failed_read_no_call _ _ _ _ (addEcosystem_fails apollo _ w Hd)).
  - by rewrite addEcosystem_run.
Qed.

(** The [i]-th wrapper sends the [i]-th document, whenever it sends. *)
Lemma run_carries_its_document apollo w inputs i r options :
  runs apollo w inputs !! i = Some r →
  options ∈ calls r →
  documents !! i = Some (mutation options).
Proof.
  intros Hr. unfold runs in Hr.
  each_index i Hr ltac:(injection Hr as <-);
    rewrite ?addProject_calls, ?addEcosystem_calls;
    autorewrite with wrappers; try case_match;
    intros Ho; try (by apply elem_of_nil in Ho);
    by apply list_elem_of_singleton in Ho as ->.
Qed.

Lemma documents_differ i j d :
  documents !! i = Some d → documents !! j = Some d → i = j.
Proof.
  unfold documents. intros Hi Hj.
  each_index i Hi ltac:(injection Hi as <-);
    each_index j Hj ltac:(first [reflexivity | by vm_compute in Hj]).
Qed.

Lemma document_is_consistent i d :
  documents !! i = Some d →
  NoDup (declared_variables d) ∧ used_variables d = declared_variables d.
Proof.
  unfold documents. intros Hi.
  each_index i Hi ltac:(injection Hi as <-);
    (split; [|reflexivity]);
    apply (bool_decide_unpack _); by vm_compute.
Qed.

(** X1: whatever the inputs, every request a wrapper makes binds exactly
    the variables that the document it carries declares (none missing,
    none undeclared), and that document is consistent in itself: it
    declares no variable twice and hands each declared variable to its
    field exactly once. *)
Theorem wrappers_bind_what_their_documents_declare apollo w inputs :
  Forall binds_what_it_declares (runs apollo w inputs).
Proof.
  apply Forall_lookup. intros i r Hr options Ho.
  pose proof (run_carries_its_document _ _ _ _ _ _ Hr Ho) as Hdoc.
  destruct (document_is_consistent _ _ Hdoc) as [Hnodup Hused].
  split; [|done].
  clear Hnodup Hused Hdoc. revert Ho. unfold runs in Hr.
  each_index i Hr ltac:(injection Hr as <-);
    rewrite ?addProject_calls, ?addEcosystem_calls;
    autorewrite with wrappers; try case_match;
    intros Ho; try (by apply elem_of_nil in Ho);
    apply list_elem_of_singleton in Ho as ->; cbn; set_solver.
Qed.

(** X2: two different wrappers never make the same request, whatever
    their clients and inputs: the document alone tells them apart, also
    where the variables coincide (deleteProject and deleteEcosystem of the
    same id, updateProject and updateEcosystem of the same data). *)
Theorem different_wrappers_send_different_requests
    apollo apollo' w w' inputs inputs' i j r r' options :
  runs apollo w inputs !! i = Some r →
  runs apollo' w' inputs' !! j = Some r' →
  i ≠ j →
  options ∈ calls r →
  options ∉ calls r'.
Proof.
  intros Hr Hr' Hne Ho Ho'. apply Hne.
  eapply documents_differ; by eapply run_carries_its_document.
Qed.

End Requests.

(** Deleting project 3 and deleting ecosystem 3 bind the same variable to
    the same value, and are different requests all the same. *)
Lemma different_wrappers_send_different_requests_witness :
  delete_project_3
    ∈ calls (Mutations.deleteProject counting_client (JStr "3") 0%nat)
  ∧ delete_project_3
    ∉ calls (Mutations.deleteEcosystem counting_client (JStr "3") 5%nat).
Proof.
  assert (Hin : delete_project_3
                ∈ calls (Mutations.deleteProject counting_client (JStr "3") 0%nat))
    by apply list_elem_of_here.
  split; [exact Hin|].
  apply (different_wrappers_send_different_requests
           counting_client counting_client 0%nat 5%nat
           sample_inputs sample_inputs 1 6 _ _ _ eq_refl eq_refl);
    [discriminate | exact Hin].
Defined.

(** ** Edge cases of the inputs *)

Lemma same_variables_same_field (vars vars' : gmap string JsValue) key v v' :
  vars = vars' → vars !! key = Some v → vars' !! key = Some v' → v = v'.
Proof. intros -> ??. congruence. Qed.

(** From the equation [H] between two variable maps to the equation
    between what they bind to [key]. *)
Ltac at_key key H :=
  apply (same_variables_same_field _ _ key _ _ H); clear H;
  by simplify_map_eq.

Section Edges.
Context {World : Type}.
Implicit Types (apollo : ApolloClient World) (w : World).
Implicit Types (data id username password : JsValue).
Implicit Types (fields : gmap string JsValue).

(** X3: the wrappers do not enforce what their documents require.  A form
    without a name (or with a null one), a null or undefined id, user
    name or password: the request is made all the same, with the variable
    that the document declares non-null bound to the very value given,
    null where null was given and undefined where undefined was given or
    the property is missing. *)
Theorem required_variables_are_sent_unset apollo w fields id
    username password username' password' :
  nullish (field_or_undefined fields "name") = true →
  nullish id = true →
  nullish username = true →
  nullish password' = true →
  sends_required_unset (Mutations.addEcosystem apollo (JObj fields) w)
    "name" (field_or_undefined fields "name")
  ∧ sends_required_unset (Mutations.deleteEcosystem apollo id w) "id" id
  ∧ sends_required_unset (Mutations.tokenAuth apollo username password w)
      "username" username
  ∧ sends_required_unset (Mutations.tokenAuth apollo username' password' w)
      "password" password'.
Proof.
  intros Hname Hid Hu Hp.
  rewrite addEcosystem_run by done. autorewrite with wrappers.
  repeat split; eexists _, _;
    (split; [reflexivity|]);
    (split; [cbn; repeat first [apply list_elem_of_here
                                | apply list_elem_of_further]|]);
    (split; [by simplify_map_eq|done]).
Qed.


Lemma same_request_same_variables document (vars vars' : gmap string JsValue) :
  [ {| mutation := document; variables := vars |} ]
  = [ {| mutation := document; variables := vars' |} ]
  ↔ vars = vars'.
Proof. split; [intros Heq; by injection Heq | by intros ->]. Qed.

Lemma prop_field fields key :
  prop (JObj fields) key = field_or_undefined fields key.
Proof. reflexivity. Qed.

(** X5: the request of addProject (of addEcosystem) determines the four
    (three) properties read from the form and nothing else of it, where a
    property the form lacks counts as undefined: two forms give the same
    request exactly when they agree on those properties in that sense. *)
Theorem add_requests_determine_the_fields apollo apollo' w w'
    fields fields' :
  (calls (Mutations.addProject apollo (JObj fields) w)
   = calls (Mutations.addProject apollo' (JObj fields') w')
   ↔ Forall (λ k, field_or_undefined fields k = field_or_undefined fields' k)
       addProject_keys)
  ∧ (calls (Mutations.addEcosystem apollo (JObj fields) w)
     = calls (Mutations.addEcosystem apollo' (JObj fields') w')
     ↔ Forall (λ k, field_or_undefined fields k = field_or_undefined fields' k)
         addEcosystem_keys).
Proof.
  rewrite !addProject_calls, !addEcosystem_calls; simpl nullish.
  rewrite !prop_field, !same_request_same_variables.
  unfold addProject_keys, addEcosystem_keys.
  rewrite !Forall_cons, !Forall_nil.
  split; split.
  - intros Hvars. repeat split;
      [ at_key "ecosystemId" Hvars | at_key "name" Hvars
      | at_key "title" Hvars | at_key "parentId" Hvars ].
  - by intros (-> & -> & -> & -> & _).
  - intros Hvars. repeat split;
      [ at_key "name" Hvars | at_key "title" Hvars
      | at_key "description" Hvars ].
  - by intros (-> & -> & -> & _).
Qed.

End Edges.

(** An empty form, a null id, an undefined user name, a null password. *)
Lemma required_variables_are_sent_unset_witness :
  sends_required_unset (Mutations.addEcosystem counting_client (JObj ∅) 0%nat)
    "name" JUndefined
  ∧ sends_required_unset (Mutations.deleteEcosystem counting_client JNull 0%nat)
      "id" JNull
  ∧ sends_required_unset
      (Mutations.tokenAuth counting_client JUndefined (JStr "secret") 0%nat)
      "username" JUndefined
  ∧ sends_required_unset
      (Mutations.tokenAuth counting_client (JStr "admin") JNull 0%nat)
      "password" JNull.
Proof.
  exact (required_variables_are_sent_unset counting_client 0%nat ∅ JNull
           JUndefined (JStr "secret") (JStr "admin") JNull
           eq_refl eq_refl eq_refl eq_refl).
Defined.

